(** * kinsumer: the configuration model and its validator (config.go)

    A shallow embedding of [Config], [NewConfig], the fifteen [With...]
    methods and [validateConfig], followed by the properties the
    specification states about them and by further properties of the
    validator and of chains of calls. *)

From Stdlib Require Import ZArith String List Bool Lia Permutation.
Import ListNotations.

Local Open Scope string_scope.
Local Open Scope Z_scope.

(** ** Go scalar types *)

(** [int64], and [int] on a 64-bit target, range over these bounds.  The
    embedding carries such values as [Z]; no function of config.go does
    arithmetic on them at run time, so no wrap-around arises, and the
    bounds only say which values a caller can pass. *)
Definition int64_min : Z := - 2 ^ 63.
Definition int64_max : Z := 2 ^ 63 - 1.

Definition in_int64 (z : Z) : Prop := int64_min <= z <= int64_max.

(** ** Package time *)

Module time.

(** [type Duration int64], a count of nanoseconds. *)
Definition Duration : Type := Z.

Definition Nanosecond : Duration := 1.
Definition Microsecond : Duration := 1000 * Nanosecond.
Definition Millisecond : Duration := 1000 * Microsecond.
Definition Second : Duration := 1000 * Millisecond.
Definition Minute : Duration := 60 * Second.

(** [time.Time] is an instant; config.go only stores it, so it is kept
    as the number of nanoseconds since the epoch. *)
Definition Time : Type := Z.

End time.

(** ** Package kinesis: the ShardIteratorType enum values *)

Module kinesis.

Definition ShardIteratorTypeAtSequenceNumber : string := "AT_SEQUENCE_NUMBER".
Definition ShardIteratorTypeAfterSequenceNumber : string := "AFTER_SEQUENCE_NUMBER".
Definition ShardIteratorTypeTrimHorizon : string := "TRIM_HORIZON".
Definition ShardIteratorTypeLatest : string := "LATEST".
Definition ShardIteratorTypeAtTimestamp : string := "AT_TIMESTAMP".

End kinesis.

(** ** Collaborators declared in other files of the package *)

(** Modelled from the spec: the [StatReceiver] interface and its no-op
    implementation [NoopStatReceiver] are declared outside config.go.  The
    spec calls the field a capability reference whose default is a no-op
    implementation; any other implementation is told apart by a tag.  A
    value of interface type is [None] for Go's [nil]. *)
Inductive StatReceiver : Type :=
| NoopStatReceiver
| CustomStatReceiver (tag : nat).

(** Modelled from the spec: the [Logger] interface and [DefaultLogger] are
    declared outside config.go; same shape as [StatReceiver]. *)
Inductive Logger : Type :=
| DefaultLogger
| CustomLogger (tag : nat).

(** Modelled from the spec: the [ErrConfigInvalid...] values returned by
    [validateConfig] are package variables declared outside config.go; the
    spec lists them as distinct error kinds.  Go's [error] result is
    [option error], [None] being [nil]. *)
Inductive error : Type :=
| ErrConfigInvalidThrottleDelay
| ErrConfigInvalidCommitFrequency
| ErrConfigInvalidShardCheckFrequency
| ErrConfigInvalidLeaderActionFrequency
| ErrConfigInvalidBufferSize
| ErrConfigInvalidStats
| ErrConfigInvalidDynamoCapacity
| ErrConfigInvalidLogger.

(** ** The Config struct *)

(** [atTimestamp] has type [*time.Time].  The only pointer ever stored is
    the address of a method's own parameter, and nothing writes through
    it, so the field is carried as its pointee: [None] for [nil],
    [Some t] for a pointer to a cell holding [t]. *)
Record Config : Type := mkConfig {
  stats : option StatReceiver;
  logger : option Logger;
  throttleDelay : time.Duration;
  commitFrequency : time.Duration;
  shardCheckFrequency : time.Duration;
  leaderActionFrequency : time.Duration;
  bufferSize : Z;
  dynamoReadCapacity : Z;
  dynamoWriteCapacity : Z;
  dynamoWaiterDelay : time.Duration;
  shardIteratorType : string;
  atTimestamp : option time.Time;
  sequenceNumber : string
}.

(** Values a Go caller can build: every integer field fits its type. *)
Definition wf_Config (c : Config) : Prop :=
  in_int64 (throttleDelay c) /\ in_int64 (commitFrequency c) /\
  in_int64 (shardCheckFrequency c) /\ in_int64 (leaderActionFrequency c) /\
  in_int64 (bufferSize c) /\ in_int64 (dynamoReadCapacity c) /\
  in_int64 (dynamoWriteCapacity c) /\ in_int64 (dynamoWaiterDelay c).

(** *** Field assignment

    [set_f v c] is the struct after the Go statement [c.f = v]. *)

Definition set_stats (v : option StatReceiver) (c : Config) : Config :=
  mkConfig v (logger c) (throttleDelay c) (commitFrequency c)
    (shardCheckFrequency c) (leaderActionFrequency c) (bufferSize c)
    (dynamoReadCapacity c) (dynamoWriteCapacity c) (dynamoWaiterDelay c)
    (shardIteratorType c) (atTimestamp c) (sequenceNumber c).

Definition set_logger (v : option Logger) (c : Config) : Config :=
  mkConfig (stats c) v (throttleDelay c) (commitFrequency c)
    (shardCheckFrequency c) (leaderActionFrequency c) (bufferSize c)
    (dynamoReadCapacity c) (dynamoWriteCapacity c) (dynamoWaiterDelay c)
    (shardIteratorType c) (atTimestamp c) (sequenceNumber c).

Definition set_throttleDelay (v : time.Duration) (c : Config) : Config :=
  mkConfig (stats c) (logger c) v (commitFrequency c)
    (shardCheckFrequency c) (leaderActionFrequency c) (bufferSize c)
    (dynamoReadCapacity c) (dynamoWriteCapacity c) (dynamoWaiterDelay c)
    (shardIteratorType c) (atTimestamp c) (sequenceNumber c).

Definition set_commitFrequency (v : time.Duration) (c : Config) : Config :=
  mkConfig (stats c) (logger c) (throttleDelay c) v
    (shardCheckFrequency c) (leaderActionFrequency c) (bufferSize c)
    (dynamoReadCapacity c) (dynamoWriteCapacity c) (dynamoWaiterDelay c)
    (shardIteratorType c) (atTimestamp c) (sequenceNumber c).

Definition set_shardCheckFrequency (v : time.Duration) (c : Config) : Config :=
  mkConfig (stats c) (logger c) (throttleDelay c) (commitFrequency c)
    v (leaderActionFrequency c) (bufferSize c)
    (dynamoReadCapacity c) (dynamoWriteCapacity c) (dynamoWaiterDelay c)
    (shardIteratorType c) (atTimestamp c) (sequenceNumber c).

Definition set_leaderActionFrequency (v : time.Duration) (c : Config) : Config :=
  mkConfig (stats c) (logger c) (throttleDelay c) (commitFrequency c)
    (shardCheckFrequency c) v (bufferSize c)
    (dynamoReadCapacity c) (dynamoWriteCapacity c) (dynamoWaiterDelay c)
    (shardIteratorType c) (atTimestamp c) (sequenceNumber c).

Definition set_bufferSize (v : Z) (c : Config) : Config :=
  mkConfig (stats c) (logger c) (throttleDelay c) (commitFrequency c)
    (shardCheckFrequency c) (leaderActionFrequency c) v
    (dynamoReadCapacity c) (dynamoWriteCapacity c) (dynamoWaiterDelay c)
    (shardIteratorType c) (atTimestamp c) (sequenceNumber c).

Definition set_dynamoReadCapacity (v : Z) (c : Config) : Config :=
  mkConfig (stats c) (logger c) (throttleDelay c) (commitFrequency c)
    (shardCheckFrequency c) (leaderActionFrequency c) (bufferSize c)
    v (dynamoWriteCapacity c) (dynamoWaiterDelay c)
    (shardIteratorType c) (atTimestamp c) (sequenceNumber c).

Definition set_dynamoWriteCapacity (v : Z) (c : Config) : Config :=
  mkConfig (stats c) (logger c) (throttleDelay c) (commitFrequency c)
    (shardCheckFrequency c) (leaderActionFrequency c) (bufferSize c)
    (dynamoReadCapacity c) v (dynamoWaiterDelay c)
    (shardIteratorType c) (atTimestamp c) (sequenceNumber c).

Definition set_dynamoWaiterDelay (v : time.Duration) (c : Config) : Config :=
  mkConfig (stats c) (logger c) (throttleDelay c) (commitFrequency c)
    (shardCheckFrequency c) (leaderActionFrequency c) (bufferSize c)
    (dynamoReadCapacity c) (dynamoWriteCapacity c) v
    (shardIteratorType c) (atTimestamp c) (sequenceNumber c).

Definition set_shardIteratorType (v : string) (c : Config) : Config :=
  mkConfig (stats c) (logger c) (throttleDelay c) (commitFrequency c)
    (shardCheckFrequency c) (leaderActionFrequency c) (bufferSize c)
    (dynamoReadCapacity c) (dynamoWriteCapacity c) (dynamoWaiterDelay c)
    v (atTimestamp c) (sequenceNumber c).

Definition set_atTimestamp (v : option time.Time) (c : Config) : Config :=
  mkConfig (stats c) (logger c) (throttleDelay c) (commitFrequency c)
    (shardCheckFrequency c) (leaderActionFrequency c) (bufferSize c)
    (dynamoReadCapacity c) (dynamoWriteCapacity c) (dynamoWaiterDelay c)
    (shardIteratorType c) v (sequenceNumber c).

Definition set_sequenceNumber (v : string) (c : Config) : Config :=
  mkConfig (stats c) (logger c) (throttleDelay c) (commitFrequency c)
    (shardCheckFrequency c) (leaderActionFrequency c) (bufferSize c)
    (dynamoReadCapacity c) (dynamoWriteCapacity c) (dynamoWaiterDelay c)
    (shardIteratorType c) (atTimestamp c) v.

(** ** NewConfig

    Fields the composite literal leaves out take Go's zero value:
    [atTimestamp] is [nil] and [sequenceNumber] is the empty string. *)
Definition NewConfig : Config :=
  {| shardIteratorType := kinesis.ShardIteratorTypeAfterSequenceNumber;
     throttleDelay := 250 * time.Millisecond;
     commitFrequency := 1000 * time.Millisecond;
     shardCheckFrequency := 1 * time.Minute;
     leaderActionFrequency := 1 * time.Minute;
     bufferSize := 100;
     stats := Some NoopStatReceiver;
     dynamoReadCapacity := 10;
     dynamoWriteCapacity := 10;
     dynamoWaiterDelay := 3 * time.Second;
     logger := Some DefaultLogger;
     atTimestamp := None;
     sequenceNumber := "" |}.

(** ** The With... methods

    Each has a value receiver: the body works on its own copy [c] of the
    caller's struct, assigns to it and returns it. *)

Definition WithThrottleDelay (c : Config) (delay : time.Duration) : Config :=
  let c := set_throttleDelay delay c in
  c.

Definition WithCommitFrequency (c : Config) (commitFrequency : time.Duration) : Config :=
  let c := set_commitFrequency commitFrequency c in
  c.

Definition WithShardCheckFrequency (c : Config) (shardCheckFrequency : time.Duration) : Config :=
  let c := set_shardCheckFrequency shardCheckFrequency c in
  c.

Definition WithLeaderActionFrequency (c : Config) (leaderActionFrequency : time.Duration) : Config :=
  let c := set_leaderActionFrequency leaderActionFrequency c in
  c.

Definition WithBufferSize (c : Config) (bufferSize : Z) : Config :=
  let c := set_bufferSize bufferSize c in
  c.

Definition WithStats (c : Config) (stats : option StatReceiver) : Config :=
  let c := set_stats stats c in
  c.

Definition WithDynamoReadCapacity (c : Config) (readCapacity : Z) : Config :=
  let c := set_dynamoReadCapacity readCapacity c in
  c.

Definition WithDynamoWriteCapacity (c : Config) (writeCapacity : Z) : Config :=
  let c := set_dynamoWriteCapacity writeCapacity c in
  c.

Definition WithDynamoWaiterDelay (c : Config) (delay : time.Duration) : Config :=
  let c := set_dynamoWaiterDelay delay c in
  c.

Definition WithLogger (c : Config) (logger : option Logger) : Config :=
  let c := set_logger logger c in
  c.

Definition WithShardIteratorAtTimestamp (c : Config) (t : time.Time) : Config :=
  let c := set_shardIteratorType kinesis.ShardIteratorTypeAtTimestamp c in
  let c := set_atTimestamp (Some t) c in
  c.

Definition WithShardIteratorLatest (c : Config) : Config :=
  let c := set_shardIteratorType kinesis.ShardIteratorTypeLatest c in
  c.

Definition WithShardIteratorAtSequenceNumber (c : Config) (sequenceNumber : string) : Config :=
  let c := set_shardIteratorType kinesis.ShardIteratorTypeLatest c in
  let c := set_sequenceNumber sequenceNumber c in
  c.

Definition WithShardIteratorAfterSequenceNumber (c : Config) (sequenceNumber : string) : Config :=
  let c := set_shardIteratorType kinesis.ShardIteratorTypeAfterSequenceNumber c in
  let c := set_sequenceNumber sequenceNumber c in
  c.

Definition WithShardIteratorTrimHorizon (c : Config) : Config :=
  let c := set_shardIteratorType kinesis.ShardIteratorTypeTrimHorizon c in
  c.

(** ** validateConfig

    The function only reads through its pointer argument, so it is a
    function of the struct pointed to; the [if ... return] statements are
    the nested conditional below, in source order. *)
Definition validateConfig (c : Config) : option error :=
  if throttleDelay c <? 200 * time.Millisecond then
    Some ErrConfigInvalidThrottleDelay
  else if commitFrequency c =? 0 then
    Some ErrConfigInvalidCommitFrequency
  else if shardCheckFrequency c =? 0 then
    Some ErrConfigInvalidShardCheckFrequency
  else if leaderActionFrequency c =? 0 then
    Some ErrConfigInvalidLeaderActionFrequency
  else if shardCheckFrequency c >? leaderActionFrequency c then
    Some ErrConfigInvalidLeaderActionFrequency
  else if bufferSize c =? 0 then
    Some ErrConfigInvalidBufferSize
  else if match stats c with None => true | Some _ => false end then
    Some ErrConfigInvalidStats
  else if (dynamoReadCapacity c =? 0) || (dynamoWriteCapacity c =? 0) then
    Some ErrConfigInvalidDynamoCapacity
  else if match logger c with None => true | Some _ => false end then
    Some ErrConfigInvalidLogger
  else
    None.

(** ** Observing a configuration field by field *)

Inductive Field : Type :=
| F_stats
| F_logger
| F_throttleDelay
| F_commitFrequency
| F_shardCheckFrequency
| F_leaderActionFrequency
| F_bufferSize
| F_dynamoReadCapacity
| F_dynamoWriteCapacity
| F_dynamoWaiterDelay
| F_shardIteratorType
| F_atTimestamp
| F_sequenceNumber.

Definition Field_eqb (f g : Field) : bool :=
  match f, g with
  | F_stats, F_stats
  | F_logger, F_logger
  | F_throttleDelay, F_throttleDelay
  | F_commitFrequency, F_commitFrequency
  | F_shardCheckFrequency, F_shardCheckFrequency
  | F_leaderActionFrequency, F_leaderActionFrequency
  | F_bufferSize, F_bufferSize
  | F_dynamoReadCapacity, F_dynamoReadCapacity
  | F_dynamoWriteCapacity, F_dynamoWriteCapacity
  | F_dynamoWaiterDelay, F_dynamoWaiterDelay
  | F_shardIteratorType, F_shardIteratorType
  | F_atTimestamp, F_atTimestamp
  | F_sequenceNumber, F_sequenceNumber => true
  | _, _ => false
  end.

(** What a field can hold. *)
Inductive Value : Type :=
| VStats (v : option StatReceiver)
| VLogger (v : option Logger)
| VInt (v : Z)
| VString (v : string)
| VTimePtr (v : option time.Time).

Definition field (f : Field) (c : Config) : Value :=
  match f with
  | F_stats => VStats (stats c)
  | F_logger => VLogger (logger c)
  | F_throttleDelay => VInt (throttleDelay c)
  | F_commitFrequency => VInt (commitFrequency c)
  | F_shardCheckFrequency => VInt (shardCheckFrequency c)
  | F_leaderActionFrequency => VInt (leaderActionFrequency c)
  | F_bufferSize => VInt (bufferSize c)
  | F_dynamoReadCapacity => VInt (dynamoReadCapacity c)
  | F_dynamoWriteCapacity => VInt (dynamoWriteCapacity c)
  | F_dynamoWaiterDelay => VInt (dynamoWaiterDelay c)
  | F_shardIteratorType => VString (shardIteratorType c)
  | F_atTimestamp => VTimePtr (atTimestamp c)
  | F_sequenceNumber => VString (sequenceNumber c)
  end.

(** ** The method set of Config, as data

    One constructor per [With...] method of config.go, carrying the
    call's argument; [apply] is the call itself. *)
Inductive Modifier : Type :=
| MWithThrottleDelay (delay : time.Duration)
| MWithCommitFrequency (commitFrequency : time.Duration)
| MWithShardCheckFrequency (shardCheckFrequency : time.Duration)
| MWithLeaderActionFrequency (leaderActionFrequency : time.Duration)
| MWithBufferSize (bufferSize : Z)
| MWithStats (stats : option StatReceiver)
| MWithDynamoReadCapacity (readCapacity : Z)
| MWithDynamoWriteCapacity (writeCapacity : Z)
| MWithDynamoWaiterDelay (delay : time.Duration)
| MWithLogger (logger : option Logger)
| MWithShardIteratorAtTimestamp (t : time.Time)
| MWithShardIteratorLatest
| MWithShardIteratorAtSequenceNumber (sequenceNumber : string)
| MWithShardIteratorAfterSequenceNumber (sequenceNumber : string)
| MWithShardIteratorTrimHorizon.

Definition apply (m : Modifier) (c : Config) : Config :=
  match m with
  | MWithThrottleDelay delay => WithThrottleDelay c delay
  | MWithCommitFrequency v => WithCommitFrequency c v
  | MWithShardCheckFrequency v => WithShardCheckFrequency c v
  | MWithLeaderActionFrequency v => WithLeaderActionFrequency c v
  | MWithBufferSize v => WithBufferSize c v
  | MWithStats v => WithStats c v
  | MWithDynamoReadCapacity v => WithDynamoReadCapacity c v
  | MWithDynamoWriteCapacity v => WithDynamoWriteCapacity c v
  | MWithDynamoWaiterDelay delay => WithDynamoWaiterDelay c delay
  | MWithLogger v => WithLogger c v
  | MWithShardIteratorAtTimestamp t => WithShardIteratorAtTimestamp c t
  | MWithShardIteratorLatest => WithShardIteratorLatest c
  | MWithShardIteratorAtSequenceNumber s => WithShardIteratorAtSequenceNumber c s
  | MWithShardIteratorAfterSequenceNumber s => WithShardIteratorAfterSequenceNumber c s
  | MWithShardIteratorTrimHorizon => WithShardIteratorTrimHorizon c
  end.

(** The assignments [c.f = v] in each method body, in source order. *)
Definition writes (m : Modifier) : list (Field * Value) :=
  match m with
  | MWithThrottleDelay delay => [(F_throttleDelay, VInt delay)]
  | MWithCommitFrequency v => [(F_commitFrequency, VInt v)]
  | MWithShardCheckFrequency v => [(F_shardCheckFrequency, VInt v)]
  | MWithLeaderActionFrequency v => [(F_leaderActionFrequency, VInt v)]
  | MWithBufferSize v => [(F_bufferSize, VInt v)]
  | MWithStats v => [(F_stats, VStats v)]
  | MWithDynamoReadCapacity v => [(F_dynamoReadCapacity, VInt v)]
  | MWithDynamoWriteCapacity v => [(F_dynamoWriteCapacity, VInt v)]
  | MWithDynamoWaiterDelay delay => [(F_dynamoWaiterDelay, VInt delay)]
  | MWithLogger v => [(F_logger, VLogger v)]
  | MWithShardIteratorAtTimestamp t =>
      [(F_shardIteratorType, VString kinesis.ShardIteratorTypeAtTimestamp);
       (F_atTimestamp, VTimePtr (Some t))]
  | MWithShardIteratorLatest =>
      [(F_shardIteratorType, VString kinesis.ShardIteratorTypeLatest)]
  | MWithShardIteratorAtSequenceNumber s =>
      [(F_shardIteratorType, VString kinesis.ShardIteratorTypeLatest);
       (F_sequenceNumber, VString s)]
  | MWithShardIteratorAfterSequenceNumber s =>
      [(F_shardIteratorType, VString kinesis.ShardIteratorTypeAfterSequenceNumber);
       (F_sequenceNumber, VString s)]
  | MWithShardIteratorTrimHorizon =>
      [(F_shardIteratorType, VString kinesis.ShardIteratorTypeTrimHorizon)]
  end.

(** The fields a method assigns to. *)
Definition targets (m : Modifier) : list Field := map fst (writes m).

Definition disjointb (fs gs : list Field) : bool :=
  forallb (fun f => negb (existsb (Field_eqb f) gs)) fs.

(** Two calls of the same method, whatever their arguments. *)
Definition same_method (m1 m2 : Modifier) : bool :=
  match m1, m2 with
  | MWithThrottleDelay _, MWithThrottleDelay _
  | MWithCommitFrequency _, MWithCommitFrequency _
  | MWithShardCheckFrequency _, MWithShardCheckFrequency _
  | MWithLeaderActionFrequency _, MWithLeaderActionFrequency _
  | MWithBufferSize _, MWithBufferSize _
  | MWithStats _, MWithStats _
  | MWithDynamoReadCapacity _, MWithDynamoReadCapacity _
  | MWithDynamoWriteCapacity _, MWithDynamoWriteCapacity _
  | MWithDynamoWaiterDelay _, MWithDynamoWaiterDelay _
  | MWithLogger _, MWithLogger _
  | MWithShardIteratorAtTimestamp _, MWithShardIteratorAtTimestamp _
  | MWithShardIteratorLatest, MWithShardIteratorLatest
  | MWithShardIteratorAtSequenceNumber _, MWithShardIteratorAtSequenceNumber _
  | MWithShardIteratorAfterSequenceNumber _, MWithShardIteratorAfterSequenceNumber _
  | MWithShardIteratorTrimHorizon, MWithShardIteratorTrimHorizon => true
  | _, _ => false
  end.

(** ** The validator as the specification words it

    Nine checks in the documented order, each a violation test with the
    error kind it reports; the floor of check 1 is 200 ms. *)
Record Check : Type := mkCheck {
  violated : Config -> bool;
  kind : error
}.

Definition throttleDelayFloor : time.Duration := 200 * time.Millisecond.

Definition documented_checks : list Check :=
  [ mkCheck (fun c => throttleDelay c <? throttleDelayFloor)
      ErrConfigInvalidThrottleDelay;
    mkCheck (fun c => commitFrequency c =? 0)
      ErrConfigInvalidCommitFrequency;
    mkCheck (fun c => shardCheckFrequency c =? 0)
      ErrConfigInvalidShardCheckFrequency;
    mkCheck (fun c => leaderActionFrequency c =? 0)
      ErrConfigInvalidLeaderActionFrequency;
    mkCheck (fun c => leaderActionFrequency c <? shardCheckFrequency c)
      ErrConfigInvalidLeaderActionFrequency;
    mkCheck (fun c => bufferSize c =? 0)
      ErrConfigInvalidBufferSize;
    mkCheck (fun c => match stats c with None => true | Some _ => false end)
      ErrConfigInvalidStats;
    mkCheck (fun c => (dynamoReadCapacity c =? 0) || (dynamoWriteCapacity c =? 0))
      ErrConfigInvalidDynamoCapacity;
    mkCheck (fun c => match logger c with None => true | Some _ => false end)
      ErrConfigInvalidLogger ].

(** Run the checks in list order and stop at the first violated one. *)
Fixpoint first_failure (cs : list Check) (c : Config) : option error :=
  match cs with
  | [] => None
  | k :: cs' => if violated k c then Some (kind k) else first_failure cs' c
  end.

Definition spec_validate (c : Config) : option error :=
  first_failure documented_checks c.

(** ** Configurations used as concrete inputs *)

(** [NewConfig()] with six fields set below zero through the public
    methods. *)
Definition negative_config : Config :=
  WithDynamoWriteCapacity
    (WithDynamoReadCapacity
       (WithBufferSize
          (WithLeaderActionFrequency
             (WithShardCheckFrequency
                (WithCommitFrequency NewConfig (-1)) (-2)) (-1)) (-1)) (-1)) (-1).

(** [NewConfig().WithThrottleDelay(100ms).WithShardCheckFrequency(2min)]:
    the shard check is slower than the leader action, and the throttle
    delay is under the floor as well. *)
Definition slow_check_fast_poll_config : Config :=
  WithShardCheckFrequency
    (WithThrottleDelay NewConfig (100 * time.Millisecond)) (2 * time.Minute).

(** ** Chains of calls *)

(** [c.m1(...).m2(...)...]: the methods of [ms] called one after the
    other, the head of the list first, each on the result of the call
    before it. *)
Definition apply_all (ms : list Modifier) (c : Config) : Config :=
  fold_left (fun c m => apply m c) ms c.

(** The value the last assignment to [f] in a list of assignments gives
    it, [None] when no assignment of the list is to [f]. *)
Fixpoint last_write (f : Field) (ws : list (Field * Value)) : option Value :=
  match ws with
  | [] => None
  | (g, v) :: ws' =>
      match last_write f ws' with
      | Some v' => Some v'
      | None => if Field_eqb f g then Some v else None
      end
  end.

(** The configurations a caller can obtain from [NewConfig()] through the
    exported methods. *)
Definition built (c : Config) : Prop :=
  exists ms, apply_all ms NewConfig = c.

(** The fields [validateConfig] reads. *)
Definition validated_fields : list Field :=
  [ F_throttleDelay; F_commitFrequency; F_shardCheckFrequency;
    F_leaderActionFrequency; F_bufferSize; F_stats; F_dynamoReadCapacity;
    F_dynamoWriteCapacity; F_logger ].

(** What every configuration obtained from [NewConfig()] satisfies: the
    iterator type is one of the four values the methods and [NewConfig]
    assign, and it is AT_TIMESTAMP only with a timestamp in place. *)
Definition iterator_invariant (c : Config) : Prop :=
  In (shardIteratorType c)
     [ kinesis.ShardIteratorTypeAfterSequenceNumber;
       kinesis.ShardIteratorTypeAtTimestamp;
       kinesis.ShardIteratorTypeLatest;
       kinesis.ShardIteratorTypeTrimHorizon ] /\
  (shardIteratorType c = kinesis.ShardIteratorTypeAtTimestamp ->
   atTimestamp c <> None).

(** A chain of calls that rebuilds [c] from [NewConfig()]: the ten plain
    fields first, then the timestamp when there is one, the sequence
    number, and last the call that leaves the wanted iterator type. *)
Definition recipe (c : Config) : list Modifier :=
  [ MWithThrottleDelay (throttleDelay c);
    MWithCommitFrequency (commitFrequency c);
    MWithShardCheckFrequency (shardCheckFrequency c);
    MWithLeaderActionFrequency (leaderActionFrequency c);
    MWithBufferSize (bufferSize c);
    MWithStats (stats c);
    MWithDynamoReadCapacity (dynamoReadCapacity c);
    MWithDynamoWriteCapacity (dynamoWriteCapacity c);
    MWithDynamoWaiterDelay (dynamoWaiterDelay c);
    MWithLogger (logger c) ] ++
  match atTimestamp c with
  | Some t => [MWithShardIteratorAtTimestamp t]
  | None => []
  end ++
  [ MWithShardIteratorAfterSequenceNumber (sequenceNumber c) ] ++
  (if String.eqb (shardIteratorType c) kinesis.ShardIteratorTypeLatest then
     [MWithShardIteratorLatest]
   else if String.eqb (shardIteratorType c) kinesis.ShardIteratorTypeTrimHorizon then
     [MWithShardIteratorTrimHorizon]
   else if String.eqb (shardIteratorType c) kinesis.ShardIteratorTypeAtTimestamp then
     match atTimestamp c with
     | Some t => [MWithShardIteratorAtTimestamp t]
     | None => []
     end
   else []).

(** A configuration no chain from [NewConfig()] needs to be valid for:
    every validated field is off, and the four others are arbitrary. *)
Definition odd_config : Config :=
  {| stats := None; logger := None;
     throttleDelay := -3; commitFrequency := 0;
     shardCheckFrequency := 9; leaderActionFrequency := 4;
     bufferSize := 0; dynamoReadCapacity := 0; dynamoWriteCapacity := -1;
     dynamoWaiterDelay := -7;
     shardIteratorType := kinesis.ShardIteratorTypeAtTimestamp;
     atTimestamp := Some 1478000000000000000;
     sequenceNumber := "7" |}.

(** * Properties *)

(** ** Reading [validateConfig] *)

(** Splits the nested conditional of [validateConfig] into its ten
    outcomes, each with the arithmetic facts that lead to it. *)
Ltac validate_cases :=
  unfold validateConfig;
  repeat match goal with
         | |- context [if ?b then _ else _] =>
             let E := fresh "E" in destruct b eqn:E
         end;
  repeat match goal with
         | H : (_ <? _) = true |- _ => apply Z.ltb_lt in H
         | H : (_ <? _) = false |- _ => apply Z.ltb_ge in H
         | H : (_ =? _) = true |- _ => apply Z.eqb_eq in H
         | H : (_ =? _) = false |- _ => apply Z.eqb_neq in H
         | H : (_ >? _) = true |- _ => rewrite Z.gtb_ltb in H; apply Z.ltb_lt in H
         | H : (_ >? _) = false |- _ => rewrite Z.gtb_ltb in H; apply Z.ltb_ge in H
         | H : (_ || _) = true |- _ => apply orb_true_iff in H
         | H : (_ || _) = false |- _ => apply orb_false_iff in H; destruct H
         end.

(** The inputs [validateConfig] accepts are exactly those that pass all
    of its tests. *)
Lemma validateConfig_accepts_iff (c : Config) :
  validateConfig c = None <->
  200 * time.Millisecond <= throttleDelay c /\
  commitFrequency c <> 0 /\
  shardCheckFrequency c <> 0 /\
  leaderActionFrequency c <> 0 /\
  shardCheckFrequency c <= leaderActionFrequency c /\
  bufferSize c <> 0 /\
  stats c <> None /\
  dynamoReadCapacity c <> 0 /\
  dynamoWriteCapacity c <> 0 /\
  logger c <> None.
Proof.
  split.
  - validate_cases; intros Hacc; try discriminate Hacc.
    destruct (stats c); [| discriminate].
    destruct (logger c); [| discriminate].
    repeat split; try assumption; try discriminate.
  - intros (Htd & Hcf & Hsc & Hla & Hle & Hbs & Hst & Hrc & Hwc & Hlg).
    validate_cases; try reflexivity; try lia.
    + destruct (stats c); [discriminate | congruence].
    + destruct (logger c); [discriminate | congruence].
Qed.

Lemma NewConfig_wf : wf_Config NewConfig.
Proof.
  unfold wf_Config, in_int64; vm_compute; intuition discriminate.
Qed.

(** ** C1: what acceptance says about the numeric fields *)

(** C1, as the specification states it, does not hold:
    [NewConfig().WithCommitFrequency(-1).WithShardCheckFrequency(-2).
    WithLeaderActionFrequency(-1).WithBufferSize(-1).
    WithDynamoReadCapacity(-1).WithDynamoWriteCapacity(-1)] is a value of
    the Go types, [validateConfig] accepts it, and none of the six fields
    is strictly positive. *)
Lemma negative_config_accepted :
  wf_Config negative_config /\
  validateConfig negative_config = None /\
  commitFrequency negative_config < 0 /\
  shardCheckFrequency negative_config < 0 /\
  leaderActionFrequency negative_config < 0 /\
  bufferSize negative_config < 0 /\
  dynamoReadCapacity negative_config < 0 /\
  dynamoWriteCapacity negative_config < 0 /\
  ~ (0 < commitFrequency negative_config /\
     0 < shardCheckFrequency negative_config /\
     0 < leaderActionFrequency negative_config /\
     0 < bufferSize negative_config /\
     0 < dynamoReadCapacity negative_config /\
     0 < dynamoWriteCapacity negative_config).
Proof.
  repeat split; try reflexivity; try (vm_compute; discriminate).
  intros (H & _). vm_compute in H. discriminate H.
Qed.

(** C1 (amended): for every configuration that [validateConfig] accepts,
    commitFrequency, shardCheckFrequency, leaderActionFrequency,
    bufferSize, dynamoReadCapacity and dynamoWriteCapacity are all
    different from zero. *)
Theorem validateConfig_accepted_nonzero (c : Config) :
  validateConfig c = None ->
  commitFrequency c <> 0 /\
  shardCheckFrequency c <> 0 /\
  leaderActionFrequency c <> 0 /\
  bufferSize c <> 0 /\
  dynamoReadCapacity c <> 0 /\
  dynamoWriteCapacity c <> 0.
Proof.
  intros H. apply validateConfig_accepts_iff in H. tauto.
Qed.

Lemma validateConfig_accepted_nonzero_witness :
  validateConfig NewConfig = None /\
  commitFrequency NewConfig <> 0 /\
  shardCheckFrequency NewConfig <> 0 /\
  leaderActionFrequency NewConfig <> 0 /\
  bufferSize NewConfig <> 0 /\
  dynamoReadCapacity NewConfig <> 0 /\
  dynamoWriteCapacity NewConfig <> 0.
Proof.
  split; [reflexivity |].
  apply (validateConfig_accepted_nonzero NewConfig). reflexivity.
Defined.

(** ** C2: the order of the checks *)

(** [first_failure] reports a kind exactly when some check of the list is
    violated, every check before it passes, and the kind is that check's. *)
Lemma first_failure_Some (cs : list Check) (c : Config) (e : error) :
  first_failure cs c = Some e <->
  exists i k,
    nth_error cs i = Some k /\ violated k c = true /\ kind k = e /\
    forall j k', (j < i)%nat -> nth_error cs j = Some k' -> violated k' c = false.
Proof.
  induction cs as [| k0 cs IH]; simpl.
  - split; [discriminate |].
    intros (i & k & Hn & _). destruct i; discriminate Hn.
  - destruct (violated k0 c) eqn:Hv.
    + split.
      * intros [= <-]. exists 0%nat, k0. repeat split; trivial.
        intros j k' Hj. lia.
      * intros (i & k & Hn & Hk & He & Hbefore).
        destruct i as [| i].
        -- simpl in Hn. injection Hn as ->. now subst e.
        -- specialize (Hbefore 0%nat k0 (Nat.lt_0_succ i) eq_refl). congruence.
    + rewrite IH. split.
      * intros (i & k & Hn & Hk & He & Hbefore).
        exists (S i), k. repeat split; trivial.
        intros [| j] k' Hj Hn'; simpl in Hn'.
        -- now injection Hn' as <-.
        -- apply (Hbefore j); [lia | assumption].
      * intros (i & k & Hn & Hk & He & Hbefore).
        destruct i as [| i]; simpl in Hn.
        -- injection Hn as ->. congruence.
        -- exists i, k. repeat split; trivial.
           intros j k' Hj Hn'. apply (Hbefore (S j)); [lia | assumption].
Qed.

Lemma first_failure_None (cs : list Check) (c : Config) :
  first_failure cs c = None <->
  forall k, In k cs -> violated k c = false.
Proof.
  induction cs as [| k0 cs IH]; simpl.
  - split; [intros _ k [] | reflexivity].
  - destruct (violated k0 c) eqn:Hv.
    + split; [discriminate |].
      intros H. specialize (H k0 (or_introl eq_refl)). congruence.
    + rewrite IH. split.
      * intros H k [<- | Hin]; [assumption | now apply H].
      * intros H k Hin. apply H. now right.
Qed.

Lemma validateConfig_spec_validate (c : Config) :
  validateConfig c = spec_validate c.
Proof.
  unfold validateConfig, spec_validate, documented_checks, throttleDelayFloor.
  cbn [first_failure violated kind].
  rewrite (Z.gtb_ltb (shardCheckFrequency c) (leaderActionFrequency c)).
  reflexivity.
Qed.

(** C2: for every configuration, [validateConfig] agrees with running the
    nine documented checks in their documented order and stopping at the
    first violated one: it returns kind [e] exactly when some check [i] of
    the list is violated, all checks before [i] pass and [e] is the kind
    of check [i]; it returns [nil] exactly when no check is violated.  The
    result is one kind, never a collection. *)
Theorem validateConfig_first_failing_check (c : Config) :
  map kind documented_checks =
    [ ErrConfigInvalidThrottleDelay; ErrConfigInvalidCommitFrequency;
      ErrConfigInvalidShardCheckFrequency;
      ErrConfigInvalidLeaderActionFrequency;
      ErrConfigInvalidLeaderActionFrequency; ErrConfigInvalidBufferSize;
      ErrConfigInvalidStats; ErrConfigInvalidDynamoCapacity;
      ErrConfigInvalidLogger ] /\
  validateConfig c = first_failure documented_checks c /\
  (forall e,
     validateConfig c = Some e <->
     exists i k,
       nth_error documented_checks i = Some k /\
       violated k c = true /\ kind k = e /\
       forall j k', (j < i)%nat ->
         nth_error documented_checks j = Some k' -> violated k' c = false) /\
  (validateConfig c = None <->
   forall k, In k documented_checks -> violated k c = false).
Proof.
  split; [reflexivity |].
  split; [apply validateConfig_spec_validate |].
  rewrite validateConfig_spec_validate. unfold spec_validate. split.
  - intros e. apply first_failure_Some.
  - apply first_failure_None.
Qed.

(** ** C3: the defaults validate *)

(** C3: [validateConfig] accepts [NewConfig()], whose fields are the
    documented defaults: throttle delay 250 ms, commit frequency 1000 ms,
    shard check and leader action frequency 1 min, buffer size 100, read
    and write capacity 10, waiter delay 3 s, start mode
    AFTER_SEQUENCE_NUMBER with no timestamp and an empty sequence number,
    and the no-op stats receiver and default logger. *)
Theorem NewConfig_valid :
  validateConfig NewConfig = None /\
  throttleDelay NewConfig = 250 * time.Millisecond /\
  commitFrequency NewConfig = 1000 * time.Millisecond /\
  shardCheckFrequency NewConfig = 1 * time.Minute /\
  leaderActionFrequency NewConfig = 1 * time.Minute /\
  bufferSize NewConfig = 100 /\
  dynamoReadCapacity NewConfig = 10 /\
  dynamoWriteCapacity NewConfig = 10 /\
  dynamoWaiterDelay NewConfig = 3 * time.Second /\
  shardIteratorType NewConfig = kinesis.ShardIteratorTypeAfterSequenceNumber /\
  atTimestamp NewConfig = None /\
  sequenceNumber NewConfig = "" /\
  stats NewConfig = Some NoopStatReceiver /\
  logger NewConfig = Some DefaultLogger /\
  time.Millisecond = 1000000 /\ time.Second = 1000000000 /\
  time.Minute = 60000000000.
Proof.
  repeat split.
Qed.

(** ** C4: the throttle-delay floor *)

(** C4: for every configuration [c] and every duration [d] below 200 ms,
    [validateConfig] applied to [c.WithThrottleDelay(d)] returns
    [ErrConfigInvalidThrottleDelay]. *)
Theorem WithThrottleDelay_below_floor_invalid (c : Config) (d : time.Duration) :
  d < 200 * time.Millisecond ->
  validateConfig (WithThrottleDelay c d) = Some ErrConfigInvalidThrottleDelay.
Proof.
  intros Hd. unfold validateConfig, WithThrottleDelay. simpl throttleDelay.
  apply Z.ltb_lt in Hd. now rewrite Hd.
Qed.

(** Scenario B of the specification:
    [NewConfig().WithThrottleDelay(100ms)]. *)
Lemma WithThrottleDelay_below_floor_invalid_witness :
  100 * time.Millisecond < 200 * time.Millisecond /\
  validateConfig (WithThrottleDelay NewConfig (100 * time.Millisecond)) =
    Some ErrConfigInvalidThrottleDelay.
Proof.
  split; [reflexivity |].
  apply (WithThrottleDelay_below_floor_invalid NewConfig (100 * time.Millisecond)).
  reflexivity.
Defined.

(** ** C5: shard check slower than leader action *)

(** C5, as the specification states it, does not hold for every
    configuration: in
    [NewConfig().WithThrottleDelay(100ms).WithShardCheckFrequency(2min)]
    the shard check frequency exceeds the leader action frequency, yet the
    throttle-delay test comes first and its kind is the one returned. *)
Lemma slow_check_fast_poll_reports_throttle :
  wf_Config slow_check_fast_poll_config /\
  shardCheckFrequency slow_check_fast_poll_config >
    leaderActionFrequency slow_check_fast_poll_config /\
  validateConfig slow_check_fast_poll_config =
    Some ErrConfigInvalidThrottleDelay /\
  validateConfig slow_check_fast_poll_config <>
    Some ErrConfigInvalidLeaderActionFrequency.
Proof.
  split; [| split; [| split]].
  - unfold wf_Config, in_int64; vm_compute; intuition discriminate.
  - reflexivity.
  - reflexivity.
  - vm_compute. discriminate.
Qed.

(** C5 (amended): for every configuration that passes the three earlier
    tests (throttleDelay at least 200 ms, commitFrequency and
    shardCheckFrequency different from zero) and whose shardCheckFrequency
    is strictly greater than its leaderActionFrequency, [validateConfig]
    returns [ErrConfigInvalidLeaderActionFrequency], the same kind it
    returns when leaderActionFrequency is set to zero. *)
Theorem shardCheck_above_leaderAction_invalid (c : Config) :
  200 * time.Millisecond <= throttleDelay c ->
  commitFrequency c <> 0 ->
  shardCheckFrequency c <> 0 ->
  shardCheckFrequency c > leaderActionFrequency c ->
  validateConfig c = Some ErrConfigInvalidLeaderActionFrequency /\
  validateConfig (WithLeaderActionFrequency c 0) =
    Some ErrConfigInvalidLeaderActionFrequency.
Proof.
  intros Htd Hcf Hsc Hgt. split.
  - validate_cases; try reflexivity; lia.
  - unfold WithLeaderActionFrequency, set_leaderActionFrequency.
    validate_cases; simpl in *; try reflexivity; try lia.
Qed.

(** Scenario C of the specification:
    [NewConfig().WithShardCheckFrequency(2min)], leader action frequency
    left at its 1 min default. *)
Lemma shardCheck_above_leaderAction_invalid_witness :
  leaderActionFrequency (WithShardCheckFrequency NewConfig (2 * time.Minute)) =
    1 * time.Minute /\
  validateConfig (WithShardCheckFrequency NewConfig (2 * time.Minute)) =
    Some ErrConfigInvalidLeaderActionFrequency.
Proof.
  split; [reflexivity |].
  apply (shardCheck_above_leaderAction_invalid
           (WithShardCheckFrequency NewConfig (2 * time.Minute)));
    vm_compute; (reflexivity || discriminate).
Defined.

(** ** C7: the "at sequence number" method *)

(** C7: [c.WithShardIteratorAtSequenceNumber(s)] leaves shardIteratorType
    at the value [c.WithShardIteratorLatest()] gives it, LATEST, which is
    not AT_SEQUENCE_NUMBER, and stores [s] in sequenceNumber. *)
Theorem WithShardIteratorAtSequenceNumber_sets_latest (c : Config) (s : string) :
  shardIteratorType (WithShardIteratorAtSequenceNumber c s) =
    shardIteratorType (WithShardIteratorLatest c) /\
  shardIteratorType (WithShardIteratorAtSequenceNumber c s) =
    kinesis.ShardIteratorTypeLatest /\
  shardIteratorType (WithShardIteratorAtSequenceNumber c s) <>
    kinesis.ShardIteratorTypeAtSequenceNumber /\
  sequenceNumber (WithShardIteratorAtSequenceNumber c s) = s.
Proof.
  repeat split. simpl. discriminate.
Qed.

(** ** C8: starting at a timestamp *)

(** C8: for every configuration [c] and instant [T],
    [c.WithShardIteratorAtTimestamp(T)] has shardIteratorType
    AT_TIMESTAMP, atTimestamp pointing to [T] and the sequenceNumber of
    [c], so a sequence number stored earlier stays in place; and
    [validateConfig] accepts
    [NewConfig().WithShardIteratorAtTimestamp(T)], and more generally
    returns for [c.WithShardIteratorAtTimestamp(T)] what it returns for
    [c]. *)
Theorem WithShardIteratorAtTimestamp_effect (c : Config) (T : time.Time) :
  shardIteratorType (WithShardIteratorAtTimestamp c T) =
    kinesis.ShardIteratorTypeAtTimestamp /\
  atTimestamp (WithShardIteratorAtTimestamp c T) = Some T /\
  sequenceNumber (WithShardIteratorAtTimestamp c T) = sequenceNumber c /\
  (forall s,
     sequenceNumber
       (WithShardIteratorAtTimestamp
          (WithShardIteratorAfterSequenceNumber c s) T) = s) /\
  validateConfig (WithShardIteratorAtTimestamp NewConfig T) = None /\
  validateConfig (WithShardIteratorAtTimestamp c T) = validateConfig c.
Proof.
  repeat split.
Qed.

(** ** C6: the methods have value semantics *)

(** The thirteen observations determine a configuration. *)
Lemma Config_ext (c1 c2 : Config) :
  (forall f, field f c1 = field f c2) -> c1 = c2.
Proof.
  intros H. destruct c1, c2.
  pose proof (H F_stats) as H1. pose proof (H F_logger) as H2.
  pose proof (H F_throttleDelay) as H3. pose proof (H F_commitFrequency) as H4.
  pose proof (H F_shardCheckFrequency) as H5.
  pose proof (H F_leaderActionFrequency) as H6.
  pose proof (H F_bufferSize) as H7. pose proof (H F_dynamoReadCapacity) as H8.
  pose proof (H F_dynamoWriteCapacity) as H9.
  pose proof (H F_dynamoWaiterDelay) as H10.
  pose proof (H F_shardIteratorType) as H11.
  pose proof (H F_atTimestamp) as H12. pose proof (H F_sequenceNumber) as H13.
  simpl in *. congruence.
Qed.

Lemma apply_frame (m : Modifier) (c : Config) (f : Field) :
  ~ In f (targets m) -> field f (apply m c) = field f c.
Proof.
  intros Hf. destruct m; destruct f; try reflexivity;
    exfalso; apply Hf; simpl; tauto.
Qed.

Lemma apply_writes (m : Modifier) (c : Config) (f : Field) (v : Value) :
  In (f, v) (writes m) -> field f (apply m c) = v.
Proof.
  destruct m; simpl;
    intros H; repeat (destruct H as [[= <- <-] | H]; [reflexivity |]);
    contradiction.
Qed.

(** C6: every [With...] method, for every receiver [c] and argument,
    returns a configuration that agrees with [c] on every field the
    method does not assign to, and holds the assigned values on the
    others.  The receiver is passed by value, so [c] still denotes the
    caller's configuration after the call; the result depends on the
    receiver's fields and the argument only, so two calls on receivers
    with equal fields give equal results. *)
Theorem modifiers_value_semantics (m : Modifier) (c : Config) :
  (forall f, ~ In f (targets m) -> field f (apply m c) = field f c) /\
  (forall f v, In (f, v) (writes m) -> field f (apply m c) = v) /\
  (forall c', (forall f, field f c' = field f c) -> apply m c' = apply m c).
Proof.
  split; [| split].
  - intros f. apply apply_frame.
  - intros f v. apply apply_writes.
  - intros c' H. now rewrite (Config_ext c' c H).
Qed.

(** ** C9: the last call of a method wins *)

Lemma apply_same_method (m1 m2 : Modifier) (c : Config) :
  same_method m1 m2 = true -> apply m2 (apply m1 c) = apply m2 c.
Proof.
  destruct m1, m2; simpl; intros H; try discriminate H; reflexivity.
Qed.

Lemma same_method_refl (m : Modifier) : same_method m m = true.
Proof. destruct m; reflexivity. Qed.

(** C9: calling the same method twice in a row, with arguments [a] then
    [b], gives the configuration a single call with [b] gives; this holds
    for [WithThrottleDelay], for [WithBufferSize] and for every other
    method, and makes every call idempotent. *)
Theorem modifiers_last_writer_wins :
  (forall c a b,
     WithThrottleDelay (WithThrottleDelay c a) b = WithThrottleDelay c b) /\
  (forall c a b,
     WithBufferSize (WithBufferSize c a) b = WithBufferSize c b) /\
  (forall m1 m2 c,
     same_method m1 m2 = true -> apply m2 (apply m1 c) = apply m2 c) /\
  (forall m c, apply m (apply m c) = apply m c).
Proof.
  split; [reflexivity |]. split; [reflexivity |]. split.
  - apply apply_same_method.
  - intros m c. apply apply_same_method, same_method_refl.
Qed.

Lemma modifiers_last_writer_wins_witness :
  same_method (MWithShardIteratorAtSequenceNumber "49590338271490256608559692538361571095921575989136588898")
              (MWithShardIteratorAtSequenceNumber "7") = true /\
  WithShardIteratorAtSequenceNumber
    (WithShardIteratorAtSequenceNumber NewConfig
       "49590338271490256608559692538361571095921575989136588898") "7" =
  WithShardIteratorAtSequenceNumber NewConfig "7".
Proof.
  split; [reflexivity |].
  apply (proj1 (proj2 (proj2 modifiers_last_writer_wins))
           (MWithShardIteratorAtSequenceNumber
              "49590338271490256608559692538361571095921575989136588898")
           (MWithShardIteratorAtSequenceNumber "7") NewConfig).
  reflexivity.
Defined.

(** ** C10: methods on disjoint fields commute *)

Lemma Field_eqb_eq (f g : Field) : Field_eqb f g = true <-> f = g.
Proof.
  split.
  - destruct f, g; simpl; intros H; try discriminate H; reflexivity.
  - intros <-. destruct f; reflexivity.
Qed.

(** [disjointb] decides that two field lists share no field. *)
Lemma disjointb_spec (fs gs : list Field) :
  disjointb fs gs = true <-> forall f, In f fs -> ~ In f gs.
Proof.
  unfold disjointb. rewrite forallb_forall. split.
  - intros H f Hf Hg. specialize (H f Hf).
    apply negb_true_iff in H.
    assert (existsb (Field_eqb f) gs = true) as Hex; [| congruence].
    apply existsb_exists. exists f. split; [assumption |].
    now apply Field_eqb_eq.
  - intros H f Hf. apply negb_true_iff.
    destruct (existsb (Field_eqb f) gs) eqn:Hex; [| reflexivity].
    apply existsb_exists in Hex. destruct Hex as (g & Hg & Heq).
    apply Field_eqb_eq in Heq. subst g. now destruct (H f Hf).
Qed.

(** Without disjointness the order matters: both methods below assign
    shardIteratorType, and the later call decides its value. *)
Lemma overlapping_methods_do_not_commute :
  disjointb (targets MWithShardIteratorLatest)
            (targets MWithShardIteratorTrimHorizon) = false /\
  WithShardIteratorTrimHorizon (WithShardIteratorLatest NewConfig) <>
  WithShardIteratorLatest (WithShardIteratorTrimHorizon NewConfig).
Proof.
  split; [reflexivity | discriminate].
Qed.

Lemma apply_disjoint_commute (m1 m2 : Modifier) (c : Config) :
  disjointb (targets m1) (targets m2) = true ->
  apply m2 (apply m1 c) = apply m1 (apply m2 c).
Proof.
  destruct m1, m2; simpl; intros H; try discriminate H; reflexivity.
Qed.

(** C10: [c.WithThrottleDelay(d).WithBufferSize(n)] equals
    [c.WithBufferSize(n).WithThrottleDelay(d)] for every [c], [d] and [n],
    and any two methods whose assigned fields are disjoint can be called
    in either order with the same result. *)
Theorem modifiers_disjoint_commute :
  (forall c d n,
     WithBufferSize (WithThrottleDelay c d) n =
     WithThrottleDelay (WithBufferSize c n) d) /\
  (forall m1 m2 c,
     disjointb (targets m1) (targets m2) = true ->
     apply m2 (apply m1 c) = apply m1 (apply m2 c)).
Proof.
  split; [reflexivity | apply apply_disjoint_commute].
Qed.

Lemma modifiers_disjoint_commute_witness :
  disjointb (targets (MWithShardIteratorAtTimestamp 1478000000000000000))
            (targets (MWithLogger None)) = true /\
  WithLogger (WithShardIteratorAtTimestamp NewConfig 1478000000000000000) None =
  WithShardIteratorAtTimestamp (WithLogger NewConfig None) 1478000000000000000.
Proof.
  split; [reflexivity |].
  apply (proj2 modifiers_disjoint_commute
           (MWithShardIteratorAtTimestamp 1478000000000000000)
           (MWithLogger None) NewConfig).
  reflexivity.
Defined.

(** * Further properties of the validator *)



Lemma validated_field_eq (c c' : Config) :
  (forall f, In f validated_fields -> field f c = field f c') ->
  throttleDelay c = throttleDelay c' /\
  commitFrequency c = commitFrequency c' /\
  shardCheckFrequency c = shardCheckFrequency c' /\
  leaderActionFrequency c = leaderActionFrequency c' /\
  bufferSize c = bufferSize c' /\
  stats c = stats c' /\
  dynamoReadCapacity c = dynamoReadCapacity c' /\
  dynamoWriteCapacity c = dynamoWriteCapacity c' /\
  logger c = logger c'.
Proof.
  intros H.
  repeat split;
    match goal with
    | |- throttleDelay _ = _ => specialize (H F_throttleDelay)
    | |- commitFrequency _ = _ => specialize (H F_commitFrequency)
    | |- shardCheckFrequency _ = _ => specialize (H F_shardCheckFrequency)
    | |- leaderActionFrequency _ = _ => specialize (H F_leaderActionFrequency)
    | |- bufferSize _ = _ => specialize (H F_bufferSize)
    | |- stats _ = _ => specialize (H F_stats)
    | |- dynamoReadCapacity _ = _ => specialize (H F_dynamoReadCapacity)
    | |- dynamoWriteCapacity _ = _ => specialize (H F_dynamoWriteCapacity)
    | |- logger _ = _ => specialize (H F_logger)
    end;
    (lapply H; [intros E; simpl in E; now injection E | simpl; tauto]).
Qed.

(** Changing one field of [NewConfig()] and nothing else. *)
Ltac only_field_changed :=
  let g := fresh "g" in
  let Hg := fresh "Hg" in
  intros g Hg; destruct g; try reflexivity; congruence.

(** X2: [validateConfig] reads nine fields and no other.  Two
    configurations that agree on throttleDelay, commitFrequency,
    shardCheckFrequency, leaderActionFrequency, bufferSize, stats,
    dynamoReadCapacity, dynamoWriteCapacity and logger get the same
    result, so a call of a method that assigns to none of these
    ([WithDynamoWaiterDelay] and the five [WithShardIterator...] methods)
    never changes the result; and each of the nine does matter, since
    changing it alone in [NewConfig()] can change the result. *)
Theorem validateConfig_reads_validated_fields_only :
  (forall c c',
     (forall f, In f validated_fields -> field f c = field f c') ->
     validateConfig c = validateConfig c') /\
  (forall m c,
     disjointb (targets m) validated_fields = true ->
     validateConfig (apply m c) = validateConfig c) /\
  (forall f,
     In f validated_fields ->
     exists c',
       (forall g, g <> f -> field g c' = field g NewConfig) /\
       validateConfig c' <> validateConfig NewConfig).
Proof.
  split; [| split].
  - intros c c' H. apply validated_field_eq in H.
    destruct H as (E1 & E2 & E3 & E4 & E5 & E6 & E7 & E8 & E9).
    unfold validateConfig.
    now rewrite E1, E2, E3, E4, E5, E6, E7, E8, E9.
  - intros m c. destruct m; simpl; intros H; try discriminate H; reflexivity.
  - intros f Hf. simpl in Hf.
    repeat (destruct Hf as [<- | Hf]); [.. | contradiction].
    + exists (set_throttleDelay 0 NewConfig).
      split; [only_field_changed | discriminate].
    + exists (set_commitFrequency 0 NewConfig).
      split; [only_field_changed | discriminate].
    + exists (set_shardCheckFrequency 0 NewConfig).
      split; [only_field_changed | discriminate].
    + exists (set_leaderActionFrequency 0 NewConfig).
      split; [only_field_changed | discriminate].
    + exists (set_bufferSize 0 NewConfig).
      split; [only_field_changed | discriminate].
    + exists (set_stats None NewConfig).
      split; [only_field_changed | discriminate].
    + exists (set_dynamoReadCapacity 0 NewConfig).
      split; [only_field_changed | discriminate].
    + exists (set_dynamoWriteCapacity 0 NewConfig).
      split; [only_field_changed | discriminate].
    + exists (set_logger None NewConfig).
      split; [only_field_changed | discriminate].
Qed.

Lemma validateConfig_reads_validated_fields_only_witness :
  disjointb (targets (MWithDynamoWaiterDelay (-7))) validated_fields = true /\
  validateConfig (WithDynamoWaiterDelay NewConfig (-7)) = validateConfig NewConfig.
Proof.
  split; [reflexivity |].
  apply (proj1 (proj2 validateConfig_reads_validated_fields_only)
           (MWithDynamoWaiterDelay (-7)) NewConfig).
  reflexivity.
Defined.

(** ** One call on an accepted configuration *)

(** After a call on an accepted configuration, the tests on the fields
    the call left alone still pass; what remains is settled by splitting
    the conditionals on both sides. *)
Ltac after_one_call c Hacc :=
  apply validateConfig_accepts_iff in Hacc;
  destruct Hacc as (? & ? & ? & ? & ? & ? & ? & ? & ? & ?);
  destruct (stats c); [| congruence];
  destruct (logger c); [| congruence];
  validate_cases; simpl in *;
  try reflexivity; try lia; try discriminate.

(** X3: on a configuration [validateConfig] accepts, one call of a timing
    method decides the result by its argument alone.  A throttle delay
    below 200 ms gives [ErrConfigInvalidThrottleDelay] and 200 ms or more
    is accepted; a zero commit frequency gives
    [ErrConfigInvalidCommitFrequency]; a zero shard check frequency gives
    [ErrConfigInvalidShardCheckFrequency] and one above the leader action
    frequency gives [ErrConfigInvalidLeaderActionFrequency]; a leader
    action frequency that is zero or below the shard check frequency
    gives [ErrConfigInvalidLeaderActionFrequency]; every other argument
    is accepted, negative ones included. *)
Theorem accepted_then_timing_call (c : Config) :
  validateConfig c = None ->
  (forall d,
     validateConfig (WithThrottleDelay c d) =
     if d <? 200 * time.Millisecond
     then Some ErrConfigInvalidThrottleDelay else None) /\
  (forall v,
     validateConfig (WithCommitFrequency c v) =
     if v =? 0 then Some ErrConfigInvalidCommitFrequency else None) /\
  (forall v,
     validateConfig (WithShardCheckFrequency c v) =
     if v =? 0 then Some ErrConfigInvalidShardCheckFrequency
     else if v >? leaderActionFrequency c
          then Some ErrConfigInvalidLeaderActionFrequency else None) /\
  (forall v,
     validateConfig (WithLeaderActionFrequency c v) =
     if (v =? 0) || (v <? shardCheckFrequency c)
     then Some ErrConfigInvalidLeaderActionFrequency else None).
Proof.
  intros Hacc. repeat split; intros v.
  - unfold WithThrottleDelay, set_throttleDelay. after_one_call c Hacc.
  - unfold WithCommitFrequency, set_commitFrequency. after_one_call c Hacc.
  - unfold WithShardCheckFrequency, set_shardCheckFrequency.
    after_one_call c Hacc.
  - unfold WithLeaderActionFrequency, set_leaderActionFrequency.
    after_one_call c Hacc.
Qed.

Lemma accepted_then_timing_call_witness :
  validateConfig NewConfig = None /\
  validateConfig (WithThrottleDelay NewConfig (200 * time.Millisecond)) = None /\
  validateConfig (WithThrottleDelay NewConfig (200 * time.Millisecond - 1)) =
    Some ErrConfigInvalidThrottleDelay /\
  validateConfig (WithCommitFrequency NewConfig (-1)) = None /\
  validateConfig (WithShardCheckFrequency NewConfig (1 * time.Minute + 1)) =
    Some ErrConfigInvalidLeaderActionFrequency /\
  validateConfig (WithLeaderActionFrequency NewConfig (1 * time.Minute - 1)) =
    Some ErrConfigInvalidLeaderActionFrequency.
Proof.
  split; [reflexivity |].
  destruct (accepted_then_timing_call NewConfig eq_refl) as (Htd & Hcf & Hsc & Hla).
  exact (conj (Htd (200 * time.Millisecond))
           (conj (Htd (200 * time.Millisecond - 1))
              (conj (Hcf (-1))
                 (conj (Hsc (1 * time.Minute + 1))
                    (Hla (1 * time.Minute - 1)))))).
Defined.

(** X4: on a configuration [validateConfig] accepts, a call that sets
    the buffer size to zero gives [ErrConfigInvalidBufferSize], a call
    that sets a [nil] stats receiver gives [ErrConfigInvalidStats], a
    call that sets the read or the write capacity to zero gives
    [ErrConfigInvalidDynamoCapacity], and a call that sets a [nil] logger
    gives [ErrConfigInvalidLogger]; with any other argument the result is
    still acceptance. *)
Theorem accepted_then_resource_call (c : Config) :
  validateConfig c = None ->
  (forall n,
     validateConfig (WithBufferSize c n) =
     if n =? 0 then Some ErrConfigInvalidBufferSize else None) /\
  (forall s,
     validateConfig (WithStats c s) =
     match s with None => Some ErrConfigInvalidStats | Some _ => None end) /\
  (forall n,
     validateConfig (WithDynamoReadCapacity c n) =
     if n =? 0 then Some ErrConfigInvalidDynamoCapacity else None) /\
  (forall n,
     validateConfig (WithDynamoWriteCapacity c n) =
     if n =? 0 then Some ErrConfigInvalidDynamoCapacity else None) /\
  (forall l,
     validateConfig (WithLogger c l) =
     match l with None => Some ErrConfigInvalidLogger | Some _ => None end).
Proof.
  intros Hacc. repeat split; intros v.
  - unfold WithBufferSize, set_bufferSize. after_one_call c Hacc.
  - unfold WithStats, set_stats. destruct v; after_one_call c Hacc.
  - unfold WithDynamoReadCapacity, set_dynamoReadCapacity.
    after_one_call c Hacc.
  - unfold WithDynamoWriteCapacity, set_dynamoWriteCapacity.
    after_one_call c Hacc.
  - unfold WithLogger, set_logger. destruct v; after_one_call c Hacc.
Qed.

Lemma accepted_then_resource_call_witness :
  validateConfig NewConfig = None /\
  validateConfig (WithBufferSize NewConfig 0) = Some ErrConfigInvalidBufferSize /\
  validateConfig (WithStats NewConfig None) = Some ErrConfigInvalidStats /\
  validateConfig (WithDynamoReadCapacity NewConfig 0) =
    Some ErrConfigInvalidDynamoCapacity /\
  validateConfig (WithDynamoWriteCapacity NewConfig 5) = None /\
  validateConfig (WithLogger NewConfig (Some (CustomLogger 1))) = None.
Proof.
  split; [reflexivity |].
  destruct (accepted_then_resource_call NewConfig eq_refl)
    as (Hbs & Hst & Hrc & Hwc & Hlg).
  exact (conj (Hbs 0)
           (conj (Hst None)
              (conj (Hrc 0)
                 (conj (Hwc 5) (Hlg (Some (CustomLogger 1))))))).
Defined.

(** * Chains of calls *)

Lemma apply_all_cons (m : Modifier) (ms : list Modifier) (c : Config) :
  apply_all (m :: ms) c = apply_all ms (apply m c).
Proof. reflexivity. Qed.

Lemma apply_all_app (ms ms' : list Modifier) (c : Config) :
  apply_all (ms ++ ms') c = apply_all ms' (apply_all ms c).
Proof. apply fold_left_app. Qed.

Lemma last_write_app (f : Field) (ws1 ws2 : list (Field * Value)) :
  last_write f (ws1 ++ ws2) =
  match last_write f ws2 with
  | Some v => Some v
  | None => last_write f ws1
  end.
Proof.
  induction ws1 as [| [g v] ws1 IH]; simpl.
  - now destruct (last_write f ws2).
  - rewrite IH. now destruct (last_write f ws2).
Qed.

Lemma last_write_In (f : Field) (v : Value) (ws : list (Field * Value)) :
  last_write f ws = Some v -> In (f, v) ws.
Proof.
  induction ws as [| [g w] ws IH]; simpl; [discriminate |].
  destruct (last_write f ws) as [v' |].
  - intros [= <-]. right. now apply IH.
  - destruct (Field_eqb f g) eqn:E; [| discriminate].
    apply Field_eqb_eq in E. subst g. intros [= <-]. now left.
Qed.

Lemma last_write_None (f : Field) (ws : list (Field * Value)) :
  last_write f ws = None <-> ~ In f (map fst ws).
Proof.
  induction ws as [| [g w] ws IH]; simpl; [tauto |].
  destruct (last_write f ws) as [v' |].
  - split; [discriminate |]. intros H. exfalso.
    assert (~ In f (map fst ws)) as Hn by tauto.
    apply IH in Hn. discriminate Hn.
  - destruct (Field_eqb f g) eqn:E.
    + apply Field_eqb_eq in E. subst g. split; [discriminate | tauto].
    + assert (g <> f) as Hne.
      { intros <-. rewrite (proj2 (Field_eqb_eq g g) eq_refl) in E.
        discriminate E. }
      split; [| reflexivity]. intros _ [Hg | Hin]; [tauto |].
      now apply (proj1 IH eq_refl).
Qed.

Lemma targets_flat_map (ms : list Modifier) :
  map fst (flat_map writes ms) = flat_map targets ms.
Proof.
  induction ms as [| m ms IH]; simpl; [reflexivity |].
  now rewrite map_app, IH.
Qed.

(** One call: a field holds the last value the body assigned to it, or
    the receiver's value when the body has no assignment to it. *)
Lemma apply_field (m : Modifier) (c : Config) (f : Field) :
  field f (apply m c) =
  match last_write f (writes m) with
  | Some v => v
  | None => field f c
  end.
Proof. destruct m, f; reflexivity. Qed.

Lemma apply_all_field (ms : list Modifier) (c : Config) (f : Field) :
  field f (apply_all ms c) =
  match last_write f (flat_map writes ms) with
  | Some v => v
  | None => field f c
  end.
Proof.
  revert c. induction ms as [| m ms IH]; intros c; [reflexivity |].
  rewrite apply_all_cons, IH. simpl flat_map. rewrite last_write_app.
  destruct (last_write f (flat_map writes ms)); [reflexivity |].
  apply apply_field.
Qed.

(** X5: what a chain of calls [c.m1(...).m2(...)...] returns, field by
    field: the value of the last assignment to that field along the
    chain, and the receiver's value for a field no call of the chain
    assigns to.  Hence two chains whose last assignments agree on every
    field return the same configuration from the same receiver. *)
Theorem chain_last_write_wins (ms : list Modifier) (c : Config) :
  (forall f,
     field f (apply_all ms c) =
     match last_write f (flat_map writes ms) with
     | Some v => v
     | None => field f c
     end) /\
  (forall f,
     ~ In f (flat_map targets ms) -> field f (apply_all ms c) = field f c) /\
  (forall ms',
     (forall f, last_write f (flat_map writes ms) =
                last_write f (flat_map writes ms')) ->
     apply_all ms c = apply_all ms' c).
Proof.
  split; [| split].
  - intros f. apply apply_all_field.
  - intros f Hf. rewrite apply_all_field.
    rewrite <- targets_flat_map in Hf. apply last_write_None in Hf.
    now rewrite Hf.
  - intros ms' H. apply Config_ext. intros f.
    now rewrite !apply_all_field, H.
Qed.

Lemma chain_last_write_wins_witness :
  ~ In F_sequenceNumber
      (flat_map targets
         [MWithShardIteratorAtTimestamp 5; MWithBufferSize 0;
          MWithShardIteratorLatest]) /\
  field F_sequenceNumber
    (WithShardIteratorLatest
       (WithBufferSize (WithShardIteratorAtTimestamp NewConfig 5) 0)) =
  field F_sequenceNumber NewConfig.
Proof.
  assert (~ In F_sequenceNumber
            (flat_map targets
               [MWithShardIteratorAtTimestamp 5; MWithBufferSize 0;
                MWithShardIteratorLatest])) as Hn.
  { simpl. intros H. repeat (destruct H as [H | H]; [discriminate H |]).
    exact H. }
  split; [exact Hn |].
  exact (proj1 (proj2 (chain_last_write_wins
                         [MWithShardIteratorAtTimestamp 5; MWithBufferSize 0;
                          MWithShardIteratorLatest] NewConfig))
           F_sequenceNumber Hn).
Defined.

Lemma NoDup_app_disjoint (fs gs : list Field) :
  NoDup (fs ++ gs) -> forall f, In f fs -> ~ In f gs.
Proof.
  induction fs as [| g fs IH]; simpl; intros Hnd f Hf; [contradiction |].
  inversion Hnd as [| ? ? Hnotin Hnd']; subst.
  destruct Hf as [<- | Hf].
  - intros Hg. apply Hnotin, in_or_app. now right.
  - now apply IH.
Qed.

(** X6: when no field is assigned twice along a chain, the order of its
    calls does not matter: every rearrangement of the chain returns the
    same configuration. *)
Theorem chain_order_irrelevant (ms ms' : list Modifier) (c : Config) :
  Permutation ms ms' ->
  NoDup (flat_map targets ms) ->
  apply_all ms c = apply_all ms' c.
Proof.
  intros P. revert c.
  induction P as [| m l l' P IH | m1 m2 l | l l' l'' P1 IH1 P2 IH2];
    intros c Hnd.
  - reflexivity.
  - rewrite !apply_all_cons. apply IH.
    simpl in Hnd. now apply NoDup_app_remove_l in Hnd.
  - rewrite !apply_all_cons. f_equal.
    apply apply_disjoint_commute, disjointb_spec.
    simpl in Hnd. intros f Hf Hf'.
    apply (NoDup_app_disjoint _ _ Hnd f Hf), in_or_app. now left.
  - rewrite (IH1 c Hnd). apply IH2.
    apply (Permutation_NoDup (l := flat_map targets l)); [| assumption].
    now apply Permutation_flat_map.
Qed.

Lemma chain_order_irrelevant_witness :
  NoDup (flat_map targets
           [MWithThrottleDelay (300 * time.Millisecond);
            MWithShardIteratorAfterSequenceNumber "7"; MWithLogger None]) /\
  WithLogger
    (WithShardIteratorAfterSequenceNumber
       (WithThrottleDelay NewConfig (300 * time.Millisecond)) "7") None =
  WithThrottleDelay
    (WithShardIteratorAfterSequenceNumber (WithLogger NewConfig None) "7")
    (300 * time.Millisecond).
Proof.
  assert (NoDup (flat_map targets
                   [MWithThrottleDelay (300 * time.Millisecond);
                    MWithShardIteratorAfterSequenceNumber "7";
                    MWithLogger None])) as Hnd.
  { simpl. repeat constructor; simpl; intros H;
      repeat (destruct H as [H | H]; [discriminate H |]); exact H. }
  split; [exact Hnd |].
  apply (chain_order_irrelevant
           [MWithThrottleDelay (300 * time.Millisecond);
            MWithShardIteratorAfterSequenceNumber "7"; MWithLogger None]
           [MWithLogger None; MWithShardIteratorAfterSequenceNumber "7";
            MWithThrottleDelay (300 * time.Millisecond)] NewConfig).
  - apply perm_trans
      with (l' := [MWithShardIteratorAfterSequenceNumber "7";
                   MWithThrottleDelay (300 * time.Millisecond);
                   MWithLogger None]).
    + apply perm_swap.
    + apply perm_trans
        with (l' := [MWithShardIteratorAfterSequenceNumber "7";
                     MWithLogger None;
                     MWithThrottleDelay (300 * time.Millisecond)]).
      * apply perm_skip, perm_swap.
      * apply perm_swap.
  - exact Hnd.
Defined.

(** X7: calls whose fields are all assigned again later in the chain
    leave no trace: when every field the chain [ms] assigns is also
    assigned by the chain [ms'], running [ms] and then [ms'] returns what
    [ms'] alone returns.  Running a chain twice is the same as running it
    once. *)
Theorem chain_overwritten_prefix (ms ms' : list Modifier) (c : Config) :
  incl (flat_map targets ms) (flat_map targets ms') ->
  apply_all (ms ++ ms') c = apply_all ms' c /\
  apply_all (ms' ++ ms') c = apply_all ms' c.
Proof.
  assert (forall l l' : list Modifier,
             incl (flat_map targets l) (flat_map targets l') ->
             apply_all (l ++ l') c = apply_all l' c) as Habs.
  { intros l l' Hincl. apply Config_ext. intros f.
    rewrite !apply_all_field, flat_map_app, last_write_app.
    destruct (last_write f (flat_map writes l')) eqn:E'; [reflexivity |].
    apply last_write_None in E'. rewrite targets_flat_map in E'.
    assert (~ In f (map fst (flat_map writes l))) as Hn.
    { rewrite targets_flat_map. intros Hin. apply E'. now apply Hincl. }
    apply last_write_None in Hn. now rewrite Hn. }
  intros Hincl. split; [now apply Habs |].
  apply Habs, incl_refl.
Qed.

Lemma chain_overwritten_prefix_witness :
  incl (flat_map targets
          [MWithShardIteratorAtSequenceNumber "1"; MWithShardIteratorLatest])
       (flat_map targets [MWithShardIteratorAfterSequenceNumber "2"]) /\
  WithShardIteratorAfterSequenceNumber
    (WithShardIteratorLatest (WithShardIteratorAtSequenceNumber NewConfig "1"))
    "2" =
  WithShardIteratorAfterSequenceNumber NewConfig "2".
Proof.
  assert (incl (flat_map targets
                  [MWithShardIteratorAtSequenceNumber "1";
                   MWithShardIteratorLatest])
               (flat_map targets [MWithShardIteratorAfterSequenceNumber "2"]))
    as Hincl.
  { simpl. intros f Hf.
    repeat (destruct Hf as [<- | Hf]; [simpl; tauto |]). contradiction. }
  split; [exact Hincl |].
  exact (proj1 (chain_overwritten_prefix
                  [MWithShardIteratorAtSequenceNumber "1";
                   MWithShardIteratorLatest]
                  [MWithShardIteratorAfterSequenceNumber "2"] NewConfig Hincl)).
Defined.

(** X8: two methods can be called in either order, on every receiver,
    exactly when they give the same value to every field both assign to.
    So [WithShardIteratorAtSequenceNumber] commutes with
    [WithShardIteratorLatest], both leaving LATEST, and with no other
    method that sets the iterator type. *)
Theorem modifiers_commute_iff (m1 m2 : Modifier) :
  (forall c, apply m2 (apply m1 c) = apply m1 (apply m2 c)) <->
  (forall f v1 v2,
     In (f, v1) (writes m1) -> In (f, v2) (writes m2) -> v1 = v2).
Proof.
  split.
  - intros H f v1 v2 H1 H2.
    rewrite <- (apply_writes m1 (apply m2 NewConfig) f v1 H1).
    rewrite <- (apply_writes m2 (apply m1 NewConfig) f v2 H2).
    now rewrite H.
  - intros H c. apply Config_ext. intros f.
    rewrite !apply_field.
    destruct (last_write f (writes m1)) as [v1 |] eqn:E1;
      destruct (last_write f (writes m2)) as [v2 |] eqn:E2;
      try reflexivity.
    apply last_write_In in E1, E2. symmetry. now apply (H f).
Qed.

Lemma modifiers_commute_iff_witness :
  WithShardIteratorLatest (WithShardIteratorAtSequenceNumber odd_config "7") =
  WithShardIteratorAtSequenceNumber (WithShardIteratorLatest odd_config) "7".
Proof.
  apply (proj2 (modifiers_commute_iff
                  (MWithShardIteratorAtSequenceNumber "7")
                  MWithShardIteratorLatest)).
  simpl. intros f v1 v2 H1 H2.
  destruct H2 as [[= <- <-] | []].
  destruct H1 as [[= <-] | [[=] | []]]; reflexivity.
Defined.

(** * Configurations built from NewConfig *)

Lemma iterator_invariant_NewConfig : iterator_invariant NewConfig.
Proof.
  split; simpl; [tauto | discriminate].
Qed.

Lemma iterator_invariant_apply (m : Modifier) (c : Config) :
  iterator_invariant c -> iterator_invariant (apply m c).
Proof.
  intros [Hin Hts].
  destruct m; try (split; [exact Hin | exact Hts]);
    (split; simpl; [tauto | discriminate]).
Qed.

Lemma iterator_invariant_apply_all (ms : list Modifier) (c : Config) :
  iterator_invariant c -> iterator_invariant (apply_all ms c).
Proof.
  revert c. induction ms as [| m ms IH]; intros c Hc; [exact Hc |].
  rewrite apply_all_cons. now apply IH, iterator_invariant_apply.
Qed.

(** X9: whatever chain of calls is made on [NewConfig()], the iterator
    type of the result is AFTER_SEQUENCE_NUMBER, AT_TIMESTAMP, LATEST or
    TRIM_HORIZON, never AT_SEQUENCE_NUMBER, and it is AT_TIMESTAMP only
    when a timestamp is stored. *)
Theorem built_iterator_type (c : Config) :
  built c ->
  In (shardIteratorType c)
     [ kinesis.ShardIteratorTypeAfterSequenceNumber;
       kinesis.ShardIteratorTypeAtTimestamp;
       kinesis.ShardIteratorTypeLatest;
       kinesis.ShardIteratorTypeTrimHorizon ] /\
  shardIteratorType c <> kinesis.ShardIteratorTypeAtSequenceNumber /\
  (shardIteratorType c = kinesis.ShardIteratorTypeAtTimestamp ->
   atTimestamp c <> None).
Proof.
  intros [ms <-].
  destruct (iterator_invariant_apply_all ms NewConfig
              iterator_invariant_NewConfig) as [Hin Hts].
  split; [exact Hin |]. split; [| exact Hts].
  intros E. rewrite E in Hin. simpl in Hin.
  repeat (destruct Hin as [Hin | Hin]; [discriminate Hin |]). exact Hin.
Qed.

Lemma built_iterator_type_witness :
  built (WithShardIteratorAtSequenceNumber
           (WithShardIteratorTrimHorizon NewConfig) "7") /\
  shardIteratorType
    (WithShardIteratorAtSequenceNumber
       (WithShardIteratorTrimHorizon NewConfig) "7") <>
  kinesis.ShardIteratorTypeAtSequenceNumber.
Proof.
  assert (built (WithShardIteratorAtSequenceNumber
                   (WithShardIteratorTrimHorizon NewConfig) "7")) as Hb.
  { exists [MWithShardIteratorTrimHorizon;
            MWithShardIteratorAtSequenceNumber "7"]. reflexivity. }
  split; [exact Hb |].
  exact (proj1 (proj2 (built_iterator_type _ Hb))).
Defined.

(** X10: conversely, every configuration whose iterator type is one of
    those four values, with a timestamp stored when it is AT_TIMESTAMP,
    is returned by some chain of calls on [NewConfig()], whatever its
    other fields are: the methods put no other limit on what a caller can
    hand to [validateConfig]. *)
Theorem consistent_config_built (c : Config) :
  In (shardIteratorType c)
     [ kinesis.ShardIteratorTypeAfterSequenceNumber;
       kinesis.ShardIteratorTypeAtTimestamp;
       kinesis.ShardIteratorTypeLatest;
       kinesis.ShardIteratorTypeTrimHorizon ] ->
  (shardIteratorType c = kinesis.ShardIteratorTypeAtTimestamp ->
   atTimestamp c <> None) ->
  built c.
Proof.
  intros Hin Hts. exists (recipe c).
  destruct c as [st lg td cf sc la bs rc wc wd ty ts sn].
  simpl in Hin, Hts.
  destruct Hin as [<- | [<- | [<- | [<- | []]]]].
  - destruct ts; reflexivity.
  - destruct ts; [reflexivity | now destruct Hts].
  - destruct ts; reflexivity.
  - destruct ts; reflexivity.
Qed.

Lemma consistent_config_built_witness :
  validateConfig odd_config = Some ErrConfigInvalidThrottleDelay /\
  built odd_config.
Proof.
  split; [reflexivity |].
  apply (consistent_config_built odd_config).
  - simpl. tauto.
  - discriminate.
Defined.
